(* Shallow embedding of the session layer of the u-blox driver
   (src/src/lib.rs, [Device]) and proofs about its behaviour.

   Integers of the Rust code are modelled as [Z]; bytes are [Z] values in
   0..255.  A [usize] computation never wraps for the values handled here
   (the request fields are 16-bit words), so [usize] arithmetic is plain [Z]
   arithmetic.  Rust panics are a distinguished outcome of the session monad. *)

From Stdlib Require Import ZArith NArith List String Bool Lia.
Import ListNotations.
Open Scope Z_scope.

(* ------------------------------------------------------------------------- *)
(** * Packets *)

(** Modelled from the spec: the packet structs live in [ubx_packets.rs],
    which is not part of src/.  Only the fields the session code reads or
    writes are named; each struct keeps the fields of its wire layout. *)

Module AckAck.
Record t := mk { classid : Z; msgid : Z }.
End AckAck.

Module MonVer.
Record t := mk { sw_version : string; hw_version : string }.
End MonVer.

Module NavPosLLH.
Record t := mk { itow : Z; lon : Z; lat : Z; height : Z; height_msl : Z;
                 horizontal_accuracy : Z; vertical_accuracy : Z }.
End NavPosLLH.

Module NavVelNED.
Record t := mk { itow : Z; vel_north : Z; vel_east : Z; vel_down : Z;
                 speed : Z; ground_speed : Z; heading : Z;
                 speed_accuracy : Z; heading_accuracy : Z }.
End NavVelNED.

Module NavStatus.
Record t := mk { itow : Z; fix_type : Z; flags : Z; fix_stat : Z;
                 flags2 : Z; ttff : Z; msss : Z }.
End NavStatus.

Module NavPosVelTime.
Record t := mk { itow : Z; year : Z; month : Z; day : Z; hour : Z;
                 min : Z; sec : Z; valid : Z; fix_type : Z;
                 lon : Z; lat : Z; height : Z;
                 vel_north : Z; vel_east : Z; vel_down : Z }.
End NavPosVelTime.

Module AlpSrv.
Record t := mk { id_size : Z; data_type : Z; offset : Z; size : Z;
                 file_id : Z; data_size : Z; id1 : Z; id2 : Z; id3 : Z }.

(** [let mut reply = packet.clone(); reply.file_id = ...] *)
Definition with_file_id (p : t) (v : Z) : t :=
  mk (id_size p) (data_type p) (offset p) (size p) v (data_size p)
     (id1 p) (id2 p) (id3 p).

(** [reply.data_size = ...] *)
Definition with_data_size (p : t) (v : Z) : t :=
  mk (id_size p) (data_type p) (offset p) (size p) (file_id p) v
     (id1 p) (id2 p) (id3 p).
End AlpSrv.

(** A raw frame as handed to [Device::send]. *)
Record UbxPacket := mkUbxPacket { class : Z; id : Z; payload : list Z }.

(** The decoded packet catalog ([enum Packet]). *)
Module Packet.
Inductive t :=
| AckAck (p : AckAck.t)
| MonVer (p : MonVer.t)
| NavPosLLH (p : NavPosLLH.t)
| NavVelNED (p : NavVelNED.t)
| NavStatus (p : NavStatus.t)
| NavPosVelTime (p : NavPosVelTime.t)
| AlpSrv (p : AlpSrv.t)
| Unknown (p : UbxPacket).
End Packet.

(** Modelled from the spec: the error type lives in [error.rs], which is not
    part of src/.  [OtherError] stands for the framer's own errors. *)
Inductive Error :=
| IoError
| UnexpectedPacket
| TimedOutWaitingForAck (classid msgid : Z)
| OtherError.

(** The configuration structs written out in [init_protocol] and
    [enable_packet]. *)
Record CfgPrtUart := mkCfgPrtUart {
  portid : Z; reserved0 : Z; tx_ready : Z; mode : Z; baud_rate : Z;
  in_proto_mask : Z; out_proto_mask : Z; cfg_flags : Z; reserved5 : Z }.

Record CfgMsg := mkCfgMsg { cfg_classid : Z; cfg_msgid : Z; rates : list Z }.

Inductive ResetType := Hot | Warm | Cold.

(* ------------------------------------------------------------------------- *)
(** * The transport and the session state *)

(** One call of [Device::recv]: the wall-clock time it took (in ms) and what
    it returned.  [recv] reads the port byte by byte and feeds the framer
    (neither of which is part of src/); its observable behaviour is one
    [Result<Option<Packet>>] per call, taken here from a script. *)
Inductive RecvFailure :=
| PortError      (* a read error other than a timeout: [Error::IoError] *)
| FramerError.   (* an error of [Segmenter::consume] *)

Definition recv_error (f : RecvFailure) : Error :=
  match f with PortError => IoError | FramerError => OtherError end.

Record Cycle := mkCycle { took : N; result : RecvFailure + option Packet.t }.

Definition cycle_ok (dt : N) (p : option Packet.t) : Cycle :=
  mkCycle dt (inr p).

(** The serial port: the frames written so far, the script of what the
    remaining [recv] calls return, the wall clock, and whether writes
    succeed. *)
Record Port := mkPort {
  outbox : list UbxPacket;
  inbox : list Cycle;
  clock : N;
  write_ok : bool }.

(** [struct Device] (the framer's state is part of the scripted [recv]). *)
Record Device := mkDevice {
  port : Port;
  alp_data : list Z;
  alp_file_id : Z;
  navpos : option NavPosLLH.t;
  navvel : option NavVelNED.t;
  navstatus : option NavStatus.t;
  solution : option NavPosVelTime.t }.

Definition set_port (d : Device) (p : Port) : Device :=
  mkDevice p (alp_data d) (alp_file_id d) (navpos d) (navvel d)
           (navstatus d) (solution d).
Definition set_navpos (d : Device) (v : option NavPosLLH.t) : Device :=
  mkDevice (port d) (alp_data d) (alp_file_id d) v (navvel d)
           (navstatus d) (solution d).
Definition set_navvel (d : Device) (v : option NavVelNED.t) : Device :=
  mkDevice (port d) (alp_data d) (alp_file_id d) (navpos d) v
           (navstatus d) (solution d).
Definition set_navstatus (d : Device) (v : option NavStatus.t) : Device :=
  mkDevice (port d) (alp_data d) (alp_file_id d) (navpos d) (navvel d)
           v (solution d).
Definition set_solution (d : Device) (v : option NavPosVelTime.t) : Device :=
  mkDevice (port d) (alp_data d) (alp_file_id d) (navpos d) (navvel d)
           (navstatus d) v.

(* ------------------------------------------------------------------------- *)
(** * The session monad: state, [Result] errors and panics *)

Inductive Exec (A : Type) : Type :=
| OkR (a : A) (d : Device)          (* Ok(a), new state *)
| ErrR (e : Error) (d : Device)     (* Err(e) propagated by [?] *)
| Panic (msg : string)              (* the thread aborts *)
| Starved (d : Device).             (* the [recv] script ran out *)
Arguments OkR {A}. Arguments ErrR {A}. Arguments Panic {A}.
Arguments Starved {A}.

Definition M (A : Type) : Type := Device -> Exec A.

Definition ret {A} (a : A) : M A := fun d => OkR a d.
Definition throw {A} (e : Error) : M A := fun d => ErrR e d.
Definition panic {A} (msg : string) : M A := fun _ => Panic msg.
Definition bind {A B} (m : M A) (k : A -> M B) : M B :=
  fun d => match m d with
           | OkR a d' => k a d'
           | ErrR e d' => ErrR e d'
           | Panic msg => Panic msg
           | Starved d' => Starved d'
           end.
Definition get : M Device := fun d => OkR d d.
Definition put (d : Device) : M unit := fun _ => OkR tt d.

Notation "x <- m ;; k" := (bind m (fun x => k))
  (at level 61, m at next level, right associativity).
Notation "m ;; k" := (bind m (fun _ => k))
  (at level 61, right associativity).

(** [Instant::now()] *)
Definition now : M N := fun d => OkR (clock (port d)) d.

(** [Device::send]: [self.port.write_all(&packet.serialize())?] *)
Definition send (p : UbxPacket) : M unit :=
  fun d => let pt := port d in
    if write_ok pt
    then OkR tt (set_port d (mkPort (outbox pt ++ [p]) (inbox pt)
                                    (clock pt) (write_ok pt)))
    else ErrR IoError d.

(** [Device::recv]: one scripted call; the clock advances by its duration. *)
Definition recv : M (option Packet.t) :=
  fun d => let pt := port d in
    match inbox pt with
    | [] => Starved d
    | c :: rest =>
        let d' := set_port d (mkPort (outbox pt) rest
                                     (clock pt + took c)%N (write_ok pt)) in
        match result c with
        | inl f => ErrR (recv_error f) d'
        | inr p => OkR p d'
        end
    end.

Definition starve {A} : M A := fun d => Starved d.

(** [&v[a..b]] on a slice: panics unless [a <= b <= v.len()]. *)
Definition index_range (v : list Z) (a b : Z) : M (list Z) :=
  if b <? a then panic "slice index starts after its end"
  else if Z.of_nat (List.length v) <? b then panic "range end index out of range"
  else ret (firstn (Z.to_nat (b - a)) (skipn (Z.to_nat a) v)).

(** [a - b] on [usize]: panics on underflow (debug build). *)
Definition usize_sub (a b : Z) : M Z :=
  if a <? b then panic "attempt to subtract with overflow" else ret (a - b).

(** [x as u16] *)
Definition as_u16 (x : Z) : Z := x mod 65536.

(* ------------------------------------------------------------------------- *)
(** * Conversions defined in [ubx_packets.rs] *)

(** Modelled from the spec: the [From]/[Into] impls, the [CfgRst] constants
    and the [bincode] encoding of the packet structs live in
    [ubx_packets.rs], which is not part of src/.  The session code only
    passes values through them, so they are kept abstract. *)
Record Codec := mkCodec {
  Position : Type;
  Velocity : Type;
  DateTimeUtc : Type;
  position_of_navpos : NavPosLLH.t -> Position;
  velocity_of_navvel : NavVelNED.t -> Velocity;
  position_of_solution : NavPosVelTime.t -> Position;
  velocity_of_solution : NavPosVelTime.t -> Velocity;
  datetime_of_solution : NavPosVelTime.t -> DateTimeUtc;
  alpsrv_serialize : AlpSrv.t -> list Z;
  CfgRst : Type;
  CfgRst_HOT : CfgRst;
  CfgRst_WARM : CfgRst;
  CfgRst_COLD : CfgRst;
  cfgrst_into : CfgRst -> UbxPacket;
  cfgprtuart_into : CfgPrtUart -> UbxPacket;
  cfgmsg_into : CfgMsg -> UbxPacket }.

(* ------------------------------------------------------------------------- *)
(** * [impl Device] *)

Section Session.

Variable cd : Codec.

(** [get_position] *)
Definition get_position (d : Device) : option (Position cd) :=
  match navstatus d, navpos d with
  | Some status, Some pos =>
      if negb (NavStatus.itow status =? NavPosLLH.itow pos) then None
      else if Z.land (NavStatus.flags status) 1 =? 0 then None
      else Some (position_of_navpos cd pos)
  | _, _ => None
  end.

(** [get_velocity] *)
Definition get_velocity (d : Device) : option (Velocity cd) :=
  match navstatus d, navvel d with
  | Some status, Some vel =>
      if negb (NavStatus.itow status =? NavVelNED.itow vel) then None
      else if Z.land (NavStatus.flags status) 1 =? 0 then None
      else Some (velocity_of_navvel cd vel)
  | _, _ => None
  end.

(** [get_solution] *)
Definition get_solution (d : Device)
  : option (Position cd) * option (Velocity cd) * option (DateTimeUtc cd) :=
  match solution d with
  | Some sol =>
      let ft := NavPosVelTime.fix_type sol in
      let has_time := (ft =? 3) || (ft =? 4) || (ft =? 5) in
      let has_posvel := (ft =? 3) || (ft =? 4) in
      let pos := if has_posvel then Some (position_of_solution cd sol) else None in
      let vel := if has_posvel then Some (velocity_of_solution cd sol) else None in
      let time := if has_time then Some (datetime_of_solution cd sol) else None in
      (pos, vel, time)
  | None => (None, None, None)
  end.

(** The [Some(Packet::AlpSrv(packet))] arm of [get_next_message]. *)
Definition serve_alp (packet : AlpSrv.t) : M (option Packet.t) :=
  d <- get ;;
  let len := Z.of_nat (List.length (alp_data d)) in
  if len =? 0 then ret None else
  let offset := AlpSrv.offset packet * 2 in
  let size := AlpSrv.size packet * 2 in
  let reply := AlpSrv.with_file_id packet (alp_file_id d) in
  size <- (if len <? offset then ret 0
           else if len <? offset + size then usize_sub len (AlpSrv.offset reply)
           else ret size) ;;
  let reply := AlpSrv.with_data_size reply (as_u16 size) in
  contents <- index_range (alp_data d) offset (offset + size) ;;
  let payload := alpsrv_serialize cd reply ++ contents in
  send (mkUbxPacket 11 50 payload) ;;
  ret None.

(** [get_next_message] *)
Definition get_next_message : M (option Packet.t) :=
  packet <- recv ;;
  match packet with
  | Some (Packet.AckAck p) => ret (Some (Packet.AckAck p))
  | Some (Packet.MonVer _) => ret None
  | Some (Packet.NavPosVelTime p) => d <- get ;; put (set_solution d (Some p)) ;; ret None
  | Some (Packet.NavVelNED p) => d <- get ;; put (set_navvel d (Some p)) ;; ret None
  | Some (Packet.NavStatus p) => d <- get ;; put (set_navstatus d (Some p)) ;; ret None
  | Some (Packet.NavPosLLH p) => d <- get ;; put (set_navpos d (Some p)) ;; ret None
  | Some (Packet.AlpSrv p) => serve_alp p
  | Some _ => ret None
  | None => ret None
  end.

(** The loop of [wait_for_ack]; [fuel] bounds the number of iterations by the
    number of scripted [recv] calls (each iteration performs exactly one). *)
Fixpoint wait_loop (fuel : nat) (start : N) (classid msgid : Z) : M unit :=
  t <- now ;;
  if (t - start <? 1000)%N then
    match fuel with
    | O => starve
    | S fuel' =>
        m <- get_next_message ;;
        match m with
        | Some (Packet.AckAck p) =>
            if negb (AckAck.classid p =? classid) || negb (AckAck.msgid p =? msgid)
            then panic "Expecting ack, got ack for wrong packet!"
            else ret tt
        | Some _ => throw UnexpectedPacket
        | None => wait_loop fuel' start classid msgid
        end
    end
  else throw (TimedOutWaitingForAck classid msgid).

Definition script_length : M nat := fun d => OkR (List.length (inbox (port d))) d.

(** [wait_for_ack] *)
Definition wait_for_ack (classid msgid : Z) : M unit :=
  start <- now ;;
  n <- script_length ;;
  wait_loop n start classid msgid.

(** [while start.elapsed() < limit { body?; }] *)
Fixpoint while_elapsed (fuel : nat) (start limit : N) (body : M unit) : M unit :=
  t <- now ;;
  if (t - start <? limit)%N then
    match fuel with
    | O => starve
    | S fuel' => body ;; while_elapsed fuel' start limit body
    end
  else ret tt.

(** [poll] *)
Definition poll : M unit := get_next_message ;; ret tt.

(** [poll_for] (durations in ms) *)
Definition poll_for (duration : N) : M unit :=
  start <- now ;;
  n <- script_length ;;
  while_elapsed n start duration poll.

(** [enable_packet] *)
Definition enable_packet (classid msgid : Z) : M unit :=
  send (cfgmsg_into cd (mkCfgMsg classid msgid [0; 1; 0; 0; 0; 0])) ;;
  wait_for_ack 6 1 ;;
  ret tt.

(** [init_protocol] *)
Definition init_protocol : M unit :=
  send (cfgprtuart_into cd (mkCfgPrtUart 1 0 0 2256 9600 7 1 0 0)) ;;
  wait_for_ack 6 0 ;;
  enable_packet 1 7 ;;
  send (mkUbxPacket 10 4 []) ;;
  poll_for 200 ;;
  ret tt.

(** The [CfgRst] constant selected by the [match temperature] of [reset]. *)
Definition cfgrst_of (temperature : ResetType) : CfgRst cd :=
  match temperature with
  | Hot => CfgRst_HOT cd
  | Warm => CfgRst_WARM cd
  | Cold => CfgRst_COLD cd
  end.

(** The part of [reset] after the state is cleared: eat messages for 500 ms,
    then run the startup sequence again. *)
Definition reset_settle : M unit :=
  start <- now ;;
  n <- script_length ;;
  while_elapsed n start 500 (recv ;; ret tt) ;;
  init_protocol ;;
  ret tt.

(** [reset] *)
Definition reset (temperature : ResetType) : M unit :=
  send (cfgrst_into cd (cfgrst_of temperature)) ;;
  d <- get ;;
  put (set_navstatus (set_navpos d None) None) ;;
  reset_settle.

End Session.

(** [self.alp_data = ...; self.alp_file_id = ...] *)
Definition set_alp (d : Device) (data : list Z) (file_id : Z) : Device :=
  mkDevice (port d) data file_id (navpos d) (navvel d) (navstatus d)
           (solution d).

Section Assistance.

Variable cd : Codec.

(** The X.25 CRC-16 of the [crc] crate ([crc16::Digest::new(crc16::X25)],
    [write], [sum16]); an external library, kept abstract. *)
Variable crc16_x25 : list Z -> Z.

(** [set_alp_offline] *)
Definition set_alp_offline (data : list Z) : M unit :=
  d <- get ;;
  put (set_alp d data (crc16_x25 data)) ;;
  send (mkUbxPacket 6 1 [11; 50; 1]) ;;
  wait_for_ack cd 6 1 ;;
  ret tt.

(** Modelled from the spec: [AidIni], [AidIni::new], [set_position],
    [set_time] and its [bincode] encoding live in [ubx_packets.rs], which is
    not part of src/; they are kept abstract. *)
Variable AidIni : Type.
Variable aidini_new : AidIni.
Variable aid_set_position : AidIni -> Position cd -> AidIni.
Variable aid_set_time : AidIni -> DateTimeUtc cd -> AidIni.
Variable aidini_serialize : AidIni -> list Z.

(** [load_aid_data] *)
Definition load_aid_data (position : option (Position cd))
    (tm : option (DateTimeUtc cd)) : M unit :=
  let aid := aidini_new in
  let aid := match position with
             | Some pos => aid_set_position aid pos
             | None => aid
             end in
  let aid := match tm with
             | Some tm => aid_set_time aid tm
             | None => aid
             end in
  send (mkUbxPacket 11 1 (aidini_serialize aid)) ;;
  ret tt.

End Assistance.

(* ------------------------------------------------------------------------- *)
(** * Receive cycles that [get_next_message] absorbs *)

(** A [recv] result that [get_next_message] turns into [Ok(None)] without
    sending anything: no packet, or a packet that is cached or logged. *)
Definition passes_through (c : Cycle) : bool :=
  match result c with
  | inr None => true
  | inr (Some (Packet.AckAck _)) => false
  | inr (Some (Packet.AlpSrv _)) => false
  | inr (Some _) => true
  | inl _ => false
  end.

(** Wall-clock time spent by a sequence of [recv] calls. *)
Fixpoint elapsed (cs : list Cycle) : N :=
  match cs with
  | [] => 0%N
  | c :: cs' => (took c + elapsed cs')%N
  end.

Definition is_ack (p : Packet.t) : bool :=
  match p with Packet.AckAck _ => true | _ => false end.

(** Nothing a user of the session can observe has changed: the cached
    packets, the assistance blob, its file id and the frames sent. *)
Definition session_unchanged (d d' : Device) : Prop :=
  navpos d' = navpos d /\ navvel d' = navvel d /\
  navstatus d' = navstatus d /\ solution d' = solution d /\
  alp_data d' = alp_data d /\ alp_file_id d' = alp_file_id d /\
  outbox (port d') = outbox (port d).

(** A receive cycle that [poll] handles without failing or sending: a
    successful [recv] of nothing or of any packet except [AlpSrv]. *)
Definition pollable (c : Cycle) : bool :=
  match result c with
  | inr (Some (Packet.AlpSrv _)) => false
  | inr _ => true
  | inl _ => false
  end.

(** A successful [recv], whatever it returned. *)
Definition recv_ok (c : Cycle) : bool :=
  match result c with inr _ => true | inl _ => false end.

(** [m] relates every state it ends in (normally, with an error, or by
    running out of script) to the state it started from by [R]. *)
Definition preserves (R : Device -> Device -> Prop) {A} (m : M A) : Prop :=
  forall d, match m d with
            | OkR _ d' | ErrR _ d' | Starved d' => R d d'
            | Panic _ => True
            end.



(** The packets [get_next_message] stores in the session cache. *)
Definition nav_cache_packet (p : Packet.t) : bool :=
  match p with
  | Packet.NavPosVelTime _ | Packet.NavVelNED _
  | Packet.NavStatus _ | Packet.NavPosLLH _ => true
  | _ => false
  end.

(* ------------------------------------------------------------------------- *)
(** * Concrete sessions *)

(** A codec whose conversions carry no information, with an encoding of the
    [AlpSrv] envelope that exposes the fields the responder sets. *)
Definition unit_codec : Codec :=
  mkCodec unit unit unit
    (fun _ => tt) (fun _ => tt) (fun _ => tt) (fun _ => tt) (fun _ => tt)
    (fun r => [AlpSrv.offset r; AlpSrv.size r; AlpSrv.file_id r;
               AlpSrv.data_size r])
    Z 0 1 2
    (fun r => mkUbxPacket 6 4 [r])
    (fun _ => mkUbxPacket 6 0 [])
    (fun m => mkUbxPacket 6 1 [cfg_classid m; cfg_msgid m]).

(** A 100-byte assistance blob: byte [i] holds [i]. *)
Definition blob100 : list Z := map Z.of_nat (seq 0 100).

Definition session_with (inb : list Cycle) : Device :=
  mkDevice (mkPort [] inb 0 true) blob100 4660 None None None None.

Definition alp_request (offset size : Z) : Packet.t :=
  Packet.AlpSrv (AlpSrv.mk 16 0 offset size 0 0 0 0 0).

Definition status_at (itow flags : Z) : NavStatus.t :=
  NavStatus.mk itow 3 flags 0 0 0 0.
Definition llh_at (itow : Z) : NavPosLLH.t :=
  NavPosLLH.mk itow 0 0 0 0 0 0.

(** A session whose cache holds a status and a position. *)
Definition gated_session (status_itow flags pos_itow : Z) : Device :=
  mkDevice (mkPort [] [] 0 true) [] 0
           (Some (llh_at pos_itow)) None (Some (status_at status_itow flags)) None.

(** A status report followed by the acknowledgement of a [CfgMsg]. *)
Definition status_then_ack : list Cycle :=
  [cycle_ok 10 (Some (Packet.NavStatus (status_at 1000 1)));
   cycle_ok 10 (Some (Packet.AckAck (AckAck.mk 6 1)))].

(* ------------------------------------------------------------------------- *)
(** * Proofs *)

Lemma land_1_testbit (x : Z) : Z.land x 1 = Z.b2z (Z.testbit x 0).
Proof.
  change 1 with (Z.ones 1). rewrite Z.land_ones by lia.
  rewrite Z.bit0_mod. reflexivity.
Qed.

Lemma land_1_eqb (x : Z) : (Z.land x 1 =? 0) = negb (Z.testbit x 0).
Proof. rewrite land_1_testbit. destruct (Z.testbit x 0); reflexivity. Qed.

(** C4: a position (resp. velocity) is produced exactly when a status and a
    position (resp. velocity) are cached with equal [itow] and bit 0 of the
    status flags is set; the spec's concrete cases follow. *)
Theorem get_position_velocity_gate (cd : Codec) (d : Device) :
  (forall p, get_position cd d = Some p <->
     exists s pos, navstatus d = Some s /\ navpos d = Some pos /\
       NavStatus.itow s = NavPosLLH.itow pos /\
       Z.testbit (NavStatus.flags s) 0 = true /\
       p = position_of_navpos cd pos) /\
  (forall v, get_velocity cd d = Some v <->
     exists s vel, navstatus d = Some s /\ navvel d = Some vel /\
       NavStatus.itow s = NavVelNED.itow vel /\
       Z.testbit (NavStatus.flags s) 0 = true /\
       v = velocity_of_navvel cd vel) /\
  get_position cd (gated_session 1000 1 1000) <> None /\
  get_position cd (gated_session 1000 1 1001) = None /\
  get_position cd (gated_session 1000 0 1000) = None.
Proof.
  unfold get_position, get_velocity.
  split; [|split; [|split; [discriminate|split; reflexivity]]].
  - intro p. destruct (navstatus d) as [s|], (navpos d) as [pos|];
      split; intro H; try discriminate;
      try (destruct H as (s' & pos' & Hs & Hp & _); discriminate).
    + rewrite land_1_eqb in H.
      destruct (NavStatus.itow s =? NavPosLLH.itow pos) eqn:E; try discriminate.
      destruct (Z.testbit (NavStatus.flags s) 0) eqn:B; try discriminate.
      injection H as <-. exists s, pos. repeat split; auto. lia.
    + destruct H as (s' & pos' & Hs & Hp & Hi & Hb & ->).
      injection Hs as <-. injection Hp as <-.
      rewrite land_1_eqb, Hb, Hi, Z.eqb_refl. reflexivity.
  - intro v. destruct (navstatus d) as [s|], (navvel d) as [vel|];
      split; intro H; try discriminate;
      try (destruct H as (s' & vel' & Hs & Hv & _); discriminate).
    + rewrite land_1_eqb in H.
      destruct (NavStatus.itow s =? NavVelNED.itow vel) eqn:E; try discriminate.
      destruct (Z.testbit (NavStatus.flags s) 0) eqn:B; try discriminate.
      injection H as <-. exists s, vel. repeat split; auto. lia.
    + destruct H as (s' & vel' & Hs & Hv & Hi & Hb & ->).
      injection Hs as <-. injection Hv as <-.
      rewrite land_1_eqb, Hb, Hi, Z.eqb_refl. reflexivity.
Qed.

(** C8: the three outputs of [get_solution] depend only on the cached
    [NavPosVelTime]: position and velocity are present exactly for fix types
    3 and 4, the calendar time exactly for fix types 3, 4 and 5, each
    converted from that cached solution; nothing cached gives three [None]. *)
Theorem get_solution_by_fix_type (cd : Codec) (d : Device) :
  let '(pos, vel, time) := get_solution cd d in
  (pos <> None <-> exists sol, solution d = Some sol /\
     (NavPosVelTime.fix_type sol = 3 \/ NavPosVelTime.fix_type sol = 4)) /\
  (vel <> None <-> exists sol, solution d = Some sol /\
     (NavPosVelTime.fix_type sol = 3 \/ NavPosVelTime.fix_type sol = 4)) /\
  (time <> None <-> exists sol, solution d = Some sol /\
     (NavPosVelTime.fix_type sol = 3 \/ NavPosVelTime.fix_type sol = 4 \/
      NavPosVelTime.fix_type sol = 5)) /\
  (pos = None \/ exists sol, solution d = Some sol /\
     pos = Some (position_of_solution cd sol)) /\
  (vel = None \/ exists sol, solution d = Some sol /\
     vel = Some (velocity_of_solution cd sol)) /\
  (time = None \/ exists sol, solution d = Some sol /\
     time = Some (datetime_of_solution cd sol)).
Proof.
  unfold get_solution. destruct (solution d) as [sol|] eqn:Hs.
  - cbn zeta.
    destruct (Z.eqb_spec (NavPosVelTime.fix_type sol) 3);
    destruct (Z.eqb_spec (NavPosVelTime.fix_type sol) 4);
    destruct (Z.eqb_spec (NavPosVelTime.fix_type sol) 5); cbn;
    (repeat split);
    try (left; reflexivity);
    try (right; exists sol; split; reflexivity);
    intros Hx;
    try (exfalso; apply Hx; reflexivity);
    try (exists sol; split; [reflexivity | tauto]);
    try (destruct Hx as (s' & Hs' & Hf); injection Hs' as <-; lia);
    try discriminate.
  - repeat split; intros; try congruence;
      try (destruct H as (s' & Hs' & _); discriminate); left; reflexivity.
Qed.

(** C9: a [NavPosVelTime], [NavVelNED], [NavStatus] or [NavPosLLH] packet
    replaces exactly its own cached field with the whole packet, leaves the
    other cached fields, the assistance blob and its file id unchanged,
    sends nothing and yields no packet to the caller. *)
Theorem get_next_message_replaces_cache (cd : Codec) (d : Device)
    (dt : N) (p : Packet.t) (rest : list Cycle) :
  inbox (port d) = cycle_ok dt (Some p) :: rest ->
  nav_cache_packet p = true ->
  exists d', get_next_message cd d = OkR None d' /\
    alp_data d' = alp_data d /\ alp_file_id d' = alp_file_id d /\
    outbox (port d') = outbox (port d) /\ inbox (port d') = rest /\
    match p with
    | Packet.NavPosVelTime sol =>
        solution d' = Some sol /\ navvel d' = navvel d /\
        navstatus d' = navstatus d /\ navpos d' = navpos d
    | Packet.NavVelNED vel =>
        solution d' = solution d /\ navvel d' = Some vel /\
        navstatus d' = navstatus d /\ navpos d' = navpos d
    | Packet.NavStatus st =>
        solution d' = solution d /\ navvel d' = navvel d /\
        navstatus d' = Some st /\ navpos d' = navpos d
    | Packet.NavPosLLH pos =>
        solution d' = solution d /\ navvel d' = navvel d /\
        navstatus d' = navstatus d /\ navpos d' = Some pos
    | _ => False
    end.
Proof.
  intros Hin Hnav. destruct p; try discriminate Hnav;
    unfold get_next_message, bind, recv; rewrite Hin;
    eexists; split; try reflexivity; cbn; repeat split.
Qed.

(** ** The [wait_for_ack] loop *)

Lemma get_next_message_passes (cd : Codec) (d : Device) (c : Cycle)
    (rest : list Cycle) :
  inbox (port d) = c :: rest -> passes_through c = true ->
  exists d', get_next_message cd d = OkR None d' /\
    inbox (port d') = rest /\ clock (port d') = (clock (port d) + took c)%N.
Proof.
  intros Hin Hp. destruct c as [dt [e | [p|]]]; cbn in Hp; try discriminate.
  - destruct p; try discriminate;
      unfold get_next_message, bind, recv; rewrite Hin;
      eexists; (split; [reflexivity | split; reflexivity]).
  - unfold get_next_message, bind, recv; rewrite Hin;
      eexists; (split; [reflexivity | split; reflexivity]).
Qed.

Lemma serve_alp_yields_none (cd : Codec) (p : AlpSrv.t) (d : Device) :
  match serve_alp cd p d with
  | OkR (Some _) _ => False
  | ErrR UnexpectedPacket _ => False
  | _ => True
  end.
Proof.
  unfold serve_alp, usize_sub, index_range, send, bind, get, ret, panic.
  repeat (cbv beta iota zeta;
          match goal with
          | |- context [if ?b then _ else _] => destruct b
          end); exact I.
Qed.

Lemma get_next_message_only_acks (cd : Codec) (d : Device) :
  match get_next_message cd d with
  | OkR (Some p) _ => is_ack p = true
  | ErrR UnexpectedPacket _ => False
  | _ => True
  end.
Proof.
  unfold get_next_message, bind at 1, recv.
  destruct (inbox (port d)) as [|c rest]; [exact I|].
  destruct (result c) as [[] | [p|]]; try exact I.
  destruct p; try exact I; try reflexivity.
  match goal with
  | |- context [serve_alp cd ?q ?d'] =>
      pose proof (serve_alp_yields_none cd q d') as H;
      destruct (serve_alp cd q d') as [[r|] ? | | |]; easy
  end.
Qed.

Lemma wait_loop_step (cd : Codec) (fuel : nat) (start : N) (classid msgid : Z)
    (d : Device) :
  (clock (port d) - start < 1000)%N ->
  wait_loop cd (S fuel) start classid msgid d =
  match get_next_message cd d with
  | OkR (Some (Packet.AckAck p)) d' =>
      if negb (AckAck.classid p =? classid) || negb (AckAck.msgid p =? msgid)
      then Panic "Expecting ack, got ack for wrong packet!"
      else OkR tt d'
  | OkR (Some _) d' => ErrR UnexpectedPacket d'
  | OkR None d' => wait_loop cd fuel start classid msgid d'
  | ErrR e d' => ErrR e d'
  | Panic msg => Panic msg
  | Starved d' => Starved d'
  end.
Proof.
  intro Hlt. cbn [wait_loop]. unfold bind at 1, now.
  rewrite (proj2 (N.ltb_lt _ _) Hlt). unfold bind.
  destruct (get_next_message cd d) as [[p|] d'| | |]; try reflexivity.
  destruct p; try reflexivity.
  destruct (negb _ || negb _); reflexivity.
Qed.

Lemma wait_loop_deadline (cd : Codec) (fuel : nat) (start : N)
    (classid msgid : Z) (d : Device) :
  (1000 <= clock (port d) - start)%N ->
  wait_loop cd fuel start classid msgid d =
  ErrR (TimedOutWaitingForAck classid msgid) d.
Proof.
  intro Hge. assert (Hf : (clock (port d) - start <? 1000)%N = false)
    by (apply N.ltb_ge; exact Hge).
  destruct fuel; cbn [wait_loop]; unfold bind, now; rewrite Hf; reflexivity.
Qed.

Lemma wait_loop_times_out (cd : Codec) (classid msgid : Z) :
  forall l d fuel start,
  inbox (port d) = l -> forallb passes_through l = true ->
  (List.length l <= fuel)%nat -> (start <= clock (port d))%N ->
  (1000 <= clock (port d) - start + elapsed l)%N ->
  exists d', wait_loop cd fuel start classid msgid d =
             ErrR (TimedOutWaitingForAck classid msgid) d'.
Proof.
  induction l as [|c l IH]; intros d fuel start Hin Hall Hlen Hst Hel.
  - exists d. apply wait_loop_deadline. cbn in Hel. lia.
  - destruct (N.ltb_spec (clock (port d) - start) 1000) as [Hlt|Hge].
    + destruct fuel as [|fuel]; [cbn in Hlen; lia|].
      apply andb_prop in Hall as [Hc Hall].
      destruct (get_next_message_passes cd d c l Hin Hc) as (d' & Hg & Hin' & Hclk).
      rewrite wait_loop_step by exact Hlt. rewrite Hg.
      apply IH; auto.
      * cbn in Hlen. lia.
      * lia.
      * cbn in Hel. lia.
    + exists d. apply wait_loop_deadline. exact Hge.
Qed.

Lemma wait_loop_skips (cd : Codec) (classid msgid : Z) :
  forall pre rest d fuel start,
  inbox (port d) = pre ++ rest -> forallb passes_through pre = true ->
  (List.length pre <= fuel)%nat -> (start <= clock (port d))%N ->
  (clock (port d) - start + elapsed pre < 1000)%N ->
  exists d', inbox (port d') = rest /\
    clock (port d') = (clock (port d) + elapsed pre)%N /\
    wait_loop cd fuel start classid msgid d =
    wait_loop cd (fuel - List.length pre) start classid msgid d'.
Proof.
  induction pre as [|c pre IH]; intros rest d fuel start Hin Hall Hlen Hst Hel.
  - exists d. cbn. rewrite Nat.sub_0_r. repeat split; auto. lia.
  - destruct fuel as [|fuel]; [cbn in Hlen; lia|].
    apply andb_prop in Hall as [Hc Hall].
    destruct (get_next_message_passes cd d c (pre ++ rest) Hin Hc)
      as (d1 & Hg & Hin1 & Hclk1).
    cbn in Hel.
    rewrite wait_loop_step by lia. rewrite Hg.
    destruct (IH rest d1 fuel start Hin1 Hall) as (d2 & Hin2 & Hclk2 & Heq);
      [cbn in Hlen; lia | lia | lia |].
    exists d2. repeat split; auto.
    + cbn. lia.
Qed.

(** C5: when an [AckAck] is the first packet that reaches [wait_for_ack]
    within the 1 s window (everything before it being absorbed by
    [get_next_message]), a matching class/id returns [Ok(())] right after
    that packet, and any other class/id aborts the program (the [panic!]):
    it is never skipped and never answered with success. *)
Theorem wait_for_ack_matches_ack (cd : Codec) (d : Device) (pre rest : list Cycle)
    (dt : N) (a : AckAck.t) (classid msgid : Z) :
  inbox (port d) = pre ++ cycle_ok dt (Some (Packet.AckAck a)) :: rest ->
  forallb passes_through pre = true ->
  (elapsed pre < 1000)%N ->
  if (AckAck.classid a =? classid) && (AckAck.msgid a =? msgid)
  then exists d', wait_for_ack cd classid msgid d = OkR tt d' /\
                  inbox (port d') = rest
  else exists msg, wait_for_ack cd classid msgid d = Panic msg.
Proof.
  intros Hin Hall Hel.
  unfold wait_for_ack, bind, now, script_length. cbv beta iota.
  rewrite Hin.
  destruct (wait_loop_skips cd classid msgid pre _ d
              (List.length (pre ++ cycle_ok dt (Some (Packet.AckAck a)) :: rest))
              (clock (port d)) Hin Hall) as (d1 & Hin1 & Hclk1 & Heq);
    [rewrite length_app; lia | lia | lia |].
  rewrite Heq, length_app, Nat.add_comm, Nat.add_sub. cbn [List.length].
  rewrite wait_loop_step by lia.
  assert (Hg : get_next_message cd d1 =
               OkR (Some (Packet.AckAck a))
                   (set_port d1 (mkPort (outbox (port d1)) rest
                                        (clock (port d1) + dt)%N
                                        (write_ok (port d1))))).
  { unfold get_next_message, bind, recv. rewrite Hin1. reflexivity. }
  rewrite Hg.
  destruct (Z.eqb_spec (AckAck.classid a) classid);
    destruct (Z.eqb_spec (AckAck.msgid a) msgid); cbn;
    eexists; repeat split; reflexivity.
Qed.

Lemma wait_loop_never_unexpected (cd : Codec) (classid msgid : Z) :
  forall fuel start d,
  match wait_loop cd fuel start classid msgid d with
  | ErrR UnexpectedPacket _ => False
  | _ => True
  end.
Proof.
  induction fuel as [|fuel IH]; intros start d.
  - cbn [wait_loop]. unfold bind, now, starve, throw.
    destruct (_ <? _)%N; exact I.
  - destruct (N.ltb_spec (clock (port d) - start) 1000) as [Hlt|Hge].
    + rewrite wait_loop_step by exact Hlt.
      pose proof (get_next_message_only_acks cd d) as Hack.
      destruct (get_next_message cd d) as [[p|] d'|e d'| |]; try exact I.
      * destruct p; try discriminate Hack.
        destruct (negb _ || negb _); exact I.
      * apply IH.
      * exact Hack.
    + rewrite wait_loop_deadline by exact Hge. exact I.
Qed.

(** C6 (as stated, refuted): a [NavStatus] packet arriving while waiting for
    the acknowledgement of a [CfgMsg] does not end the wait with
    [UnexpectedPacket]; it is cached and the following [AckAck] completes
    the wait successfully. *)
Lemma wait_for_ack_absorbs_status :
  (exists d', wait_for_ack unit_codec 6 1 (session_with status_then_ack) = OkR tt d') /\
  ~ (exists d', wait_for_ack unit_codec 6 1 (session_with status_then_ack) =
                ErrR UnexpectedPacket d').
Proof.
  split.
  - eexists. vm_compute. reflexivity.
  - intros [d' H]. vm_compute in H. discriminate H.
Qed.

(** C6 (amended): [get_next_message] hands only [AckAck] packets to its
    caller (every other packet is cached, logged or served, and yields
    [None]), so packets other than [AckAck] continue the [wait_for_ack] loop
    like empty receive cycles and [wait_for_ack] never returns
    [UnexpectedPacket]. *)
Theorem wait_for_ack_never_unexpected (cd : Codec) (classid msgid : Z)
    (d : Device) :
  match get_next_message cd d with
  | OkR (Some p) _ => is_ack p = true
  | ErrR UnexpectedPacket _ => False
  | _ => True
  end /\
  match wait_for_ack cd classid msgid d with
  | ErrR UnexpectedPacket _ => False
  | _ => True
  end.
Proof.
  split; [apply get_next_message_only_acks|].
  unfold wait_for_ack, bind, now, script_length. cbv beta iota.
  apply wait_loop_never_unexpected.
Qed.

(** C7: if every receive cycle is absorbed by [get_next_message] (no packet,
    or a packet that is only cached or logged) and the cycles span at least
    the 1 s window, [wait_for_ack] returns the timeout error carrying the
    awaited class and message id. *)
Theorem wait_for_ack_times_out (cd : Codec) (d : Device) (classid msgid : Z) :
  forallb passes_through (inbox (port d)) = true ->
  (1000 <= elapsed (inbox (port d)))%N ->
  exists d', wait_for_ack cd classid msgid d =
             ErrR (TimedOutWaitingForAck classid msgid) d'.
Proof.
  intros Hall Hel.
  unfold wait_for_ack, bind, now, script_length. cbv beta iota.
  apply (wait_loop_times_out cd classid msgid (inbox (port d))); auto; lia.
Qed.

(** C10: [reset] sends the [CfgRst] constant of the requested kind and then
    clears the cached position and status; the cached velocity, the cached
    solution, the assistance blob and its file id are left as they were, and
    the rest of [reset] (the 500 ms drain and the startup sequence) runs from
    that state.  (If the write fails, [send]'s [?] returns before clearing.) *)
Theorem reset_clears_position_status (cd : Codec) (temperature : ResetType)
    (d : Device) :
  write_ok (port d) = true ->
  exists d1, reset cd temperature d = reset_settle cd d1 /\
    outbox (port d1) =
      outbox (port d) ++
        [cfgrst_into cd (match temperature with
                         | Hot => CfgRst_HOT cd
                         | Warm => CfgRst_WARM cd
                         | Cold => CfgRst_COLD cd
                         end)] /\
    inbox (port d1) = inbox (port d) /\
    navpos d1 = None /\ navstatus d1 = None /\
    navvel d1 = navvel d /\ solution d1 = solution d /\
    alp_data d1 = alp_data d /\ alp_file_id d1 = alp_file_id d.
Proof.
  intro Hw. unfold reset, send, bind, get, put. rewrite Hw.
  eexists; split; [reflexivity|].
  destruct temperature; cbn; repeat split.
Qed.

(** C1 (failing input): a 100-byte blob and a request for 40 words at word
    offset 40.  The clamp computes the remaining size from the word offset
    ([100 - 40 = 60] instead of [100 - 80 = 20]), so the slice [80..140]
    is out of range and the session panics instead of replying. *)
Theorem alp_truncated_request_panics (cd : Codec) :
  get_next_message cd (session_with [cycle_ok 0 (Some (alp_request 40 40))]) =
  Panic "range end index out of range".
Proof. reflexivity. Qed.

(** C2 (failing input): a 100-byte blob and a request at word offset 60
    (byte 120).  The size is clamped to 0, but the slice [120..120] still
    starts past the end of the blob, so the session panics instead of
    sending a zero-length reply. *)
Theorem alp_request_past_end_panics (cd : Codec) :
  get_next_message cd (session_with [cycle_ok 0 (Some (alp_request 60 40))]) =
  Panic "range end index out of range".
Proof. reflexivity. Qed.

(** C3: with a non-empty blob, every request whose byte offset lies past the
    end of the blob, and every request that needs truncation at a non-zero
    word offset, makes the [alp_data[offset..offset + size]] slice go out of
    range: handling it aborts the program. *)
Theorem get_next_message_alp_out_of_range (cd : Codec) (d : Device) (dt : N)
    (p : AlpSrv.t) (rest : list Cycle) :
  inbox (port d) = cycle_ok dt (Some (Packet.AlpSrv p)) :: rest ->
  alp_data d <> [] ->
  0 <= AlpSrv.offset p -> 0 <= AlpSrv.size p ->
  Z.of_nat (List.length (alp_data d)) < AlpSrv.offset p * 2 \/
  (AlpSrv.offset p * 2 <= Z.of_nat (List.length (alp_data d)) <
     AlpSrv.offset p * 2 + AlpSrv.size p * 2 /\ 0 < AlpSrv.offset p) ->
  exists msg, get_next_message cd d = Panic msg.
Proof.
  intros Hin Hne Ho Hs Hcase.
  assert (Hlen : 0 < Z.of_nat (List.length (alp_data d))).
  { destruct (alp_data d); [contradiction|cbn [List.length]; lia]. }
  unfold get_next_message, bind at 1, recv. rewrite Hin.
  unfold cycle_ok. cbn [result took]. cbv beta iota.
  unfold serve_alp, usize_sub, index_range, send, bind, get, ret, panic.
  unfold set_port. cbn [alp_data alp_file_id port AlpSrv.offset
                        AlpSrv.with_file_id].
  repeat (cbv beta iota zeta;
          match goal with
          | |- context [if ?b then _ else _] =>
              let E := fresh "E" in destruct b eqn:E
          end);
    try (eexists; reflexivity);
    rewrite ?Z.ltb_lt, ?Z.ltb_ge, ?Z.eqb_eq, ?Z.eqb_neq in *; lia.
Qed.

(* ------------------------------------------------------------------------- *)
(** * The theorems at concrete sessions *)

Lemma wait_for_ack_matches_ack_witness :
  (exists d', wait_for_ack unit_codec 6 1
                (session_with [cycle_ok 5 (Some (Packet.AckAck (AckAck.mk 6 1)))])
              = OkR tt d' /\ inbox (port d') = []) /\
  (exists msg, wait_for_ack unit_codec 6 0
                 (session_with [cycle_ok 5 (Some (Packet.AckAck (AckAck.mk 6 1)))])
               = Panic msg).
Proof.
  split.
  - exact (wait_for_ack_matches_ack unit_codec
             (session_with [cycle_ok 5 (Some (Packet.AckAck (AckAck.mk 6 1)))])
             [] [] 5 (AckAck.mk 6 1) 6 1 eq_refl eq_refl
             ltac:(vm_compute; reflexivity)).
  - exact (wait_for_ack_matches_ack unit_codec
             (session_with [cycle_ok 5 (Some (Packet.AckAck (AckAck.mk 6 1)))])
             [] [] 5 (AckAck.mk 6 1) 6 0 eq_refl eq_refl
             ltac:(vm_compute; reflexivity)).
Defined.

Lemma wait_for_ack_times_out_witness :
  exists d', wait_for_ack unit_codec 6 0
               (session_with [cycle_ok 600 None;
                              cycle_ok 600 (Some (Packet.NavStatus (status_at 1000 1)))])
             = ErrR (TimedOutWaitingForAck 6 0) d'.
Proof.
  apply (wait_for_ack_times_out unit_codec
           (session_with [cycle_ok 600 None;
                          cycle_ok 600 (Some (Packet.NavStatus (status_at 1000 1)))])
           6 0).
  - reflexivity.
  - vm_compute. discriminate.
Defined.

Lemma get_next_message_replaces_cache_witness :
  exists d', get_next_message unit_codec
               (session_with [cycle_ok 3 (Some (Packet.NavStatus (status_at 1000 1)))])
             = OkR None d' /\
    alp_data d' = blob100 /\ alp_file_id d' = 4660 /\
    outbox (port d') = [] /\ inbox (port d') = [] /\
    solution d' = None /\ navvel d' = None /\
    navstatus d' = Some (status_at 1000 1) /\ navpos d' = None.
Proof.
  exact (get_next_message_replaces_cache unit_codec
           (session_with [cycle_ok 3 (Some (Packet.NavStatus (status_at 1000 1)))])
           3 (Packet.NavStatus (status_at 1000 1)) [] eq_refl eq_refl).
Defined.

Lemma reset_clears_position_status_witness :
  exists d1, reset unit_codec Cold
               (mkDevice (mkPort [] [] 0 true) blob100 4660
                  (Some (llh_at 1000)) None (Some (status_at 1000 1)) None)
             = reset_settle unit_codec d1 /\
    outbox (port d1) = [mkUbxPacket 6 4 [2]] /\ inbox (port d1) = [] /\
    navpos d1 = None /\ navstatus d1 = None /\
    navvel d1 = None /\ solution d1 = None /\
    alp_data d1 = blob100 /\ alp_file_id d1 = 4660.
Proof.
  exact (reset_clears_position_status unit_codec Cold
           (mkDevice (mkPort [] [] 0 true) blob100 4660
              (Some (llh_at 1000)) None (Some (status_at 1000 1)) None)
           eq_refl).
Defined.

Lemma get_next_message_alp_out_of_range_witness :
  exists msg, get_next_message unit_codec
                (session_with [cycle_ok 0 (Some (alp_request 60 40))])
              = Panic msg.
Proof.
  apply (get_next_message_alp_out_of_range unit_codec
           (session_with [cycle_ok 0 (Some (alp_request 60 40))]) 0
           (AlpSrv.mk 16 0 60 40 0 0 0 0 0) []).
  - reflexivity.
  - discriminate.
  - cbn. lia.
  - cbn. lia.
  - left. vm_compute. reflexivity.
Defined.

(* ------------------------------------------------------------------------- *)
(** * Further properties of the session *)

(** ** The assistance-data responder *)

Ltac serve_alp_cases Hin :=
  unfold get_next_message, bind at 1, recv; rewrite Hin;
  unfold cycle_ok; cbn [result took]; cbv beta iota;
  unfold serve_alp, usize_sub, index_range, send, bind, get, ret, panic;
  unfold set_port; cbn [alp_data alp_file_id port write_ok outbox inbox clock
                        AlpSrv.offset AlpSrv.size AlpSrv.with_file_id].

(** A request that lies inside the loaded blob is answered with one
    [0x0B 0x32] frame: the request envelope with the session's file id and
    data size [size * 2] (as [u16]), followed by the requested bytes
    [data[offset * 2 .. offset * 2 + size * 2]].  Nothing else changes. *)
Theorem get_next_message_alp_in_range (cd : Codec) (d : Device) (dt : N)
    (p : AlpSrv.t) (rest : list Cycle) :
  inbox (port d) = cycle_ok dt (Some (Packet.AlpSrv p)) :: rest ->
  alp_data d <> [] -> write_ok (port d) = true ->
  0 <= AlpSrv.offset p -> 0 <= AlpSrv.size p ->
  AlpSrv.offset p * 2 + AlpSrv.size p * 2 <= Z.of_nat (List.length (alp_data d)) ->
  exists d', get_next_message cd d = OkR None d' /\
    outbox (port d') =
      outbox (port d) ++
        [mkUbxPacket 11 50
           (alpsrv_serialize cd
              (AlpSrv.mk (AlpSrv.id_size p) (AlpSrv.data_type p)
                 (AlpSrv.offset p) (AlpSrv.size p) (alp_file_id d)
                 (as_u16 (AlpSrv.size p * 2))
                 (AlpSrv.id1 p) (AlpSrv.id2 p) (AlpSrv.id3 p)) ++
            firstn (Z.to_nat (AlpSrv.size p * 2))
                   (skipn (Z.to_nat (AlpSrv.offset p * 2)) (alp_data d)))] /\
    inbox (port d') = rest /\
    alp_data d' = alp_data d /\ alp_file_id d' = alp_file_id d /\
    navpos d' = navpos d /\ navvel d' = navvel d /\
    navstatus d' = navstatus d /\ solution d' = solution d.
Proof.
  intros Hin Hne Hw Ho Hs Hle.
  assert (Hlen : 0 < Z.of_nat (List.length (alp_data d))).
  { destruct (alp_data d); [contradiction|cbn [List.length]; lia]. }
  serve_alp_cases Hin. rewrite Hw.
  repeat (cbv beta iota zeta;
          match goal with
          | |- context [if ?b then _ else _] =>
              let E := fresh "E" in destruct b eqn:E
          end);
    rewrite ?Z.ltb_lt, ?Z.ltb_ge, ?Z.eqb_eq, ?Z.eqb_neq in *; try lia.
  all: try (match goal with
            | H : write_ok _ = false |- _ => cbn in H; discriminate H
            end).
  eexists; split; [reflexivity|]. cbn. repeat split.
  replace (AlpSrv.offset p * 2 + AlpSrv.size p * 2 - AlpSrv.offset p * 2)
    with (AlpSrv.size p * 2) by lia.
  reflexivity.
Qed.


(** Without a loaded blob an [AlpSrv] request is ignored: no reply is sent
    and the session state is left as it was. *)
Theorem get_next_message_alp_without_blob (cd : Codec) (d : Device) (dt : N)
    (p : AlpSrv.t) (rest : list Cycle) :
  inbox (port d) = cycle_ok dt (Some (Packet.AlpSrv p)) :: rest ->
  alp_data d = [] ->
  exists d', get_next_message cd d = OkR None d' /\
    session_unchanged d d' /\ inbox (port d') = rest.
Proof.
  intros Hin Hnil. serve_alp_cases Hin. rewrite Hnil. cbn.
  eexists; split; [reflexivity|]. unfold session_unchanged; cbn.
  rewrite Hnil. repeat split.
Qed.

(** Version reports, packets outside the catalog and empty receive cycles
    are consumed without touching the cache, the blob or the port output. *)
Theorem get_next_message_ignores_other (cd : Codec) (d : Device) (dt : N)
    (p : option Packet.t) (rest : list Cycle) :
  inbox (port d) = cycle_ok dt p :: rest ->
  match p with
  | None | Some (Packet.MonVer _) | Some (Packet.Unknown _) => True
  | _ => False
  end ->
  exists d', get_next_message cd d = OkR None d' /\
    session_unchanged d d' /\ inbox (port d') = rest.
Proof.
  intros Hin Hp.
  destruct p as [[]|]; try contradiction;
    unfold get_next_message, bind, recv; rewrite Hin;
    eexists; (split; [reflexivity|]); unfold session_unchanged; cbn;
    repeat split.
Qed.

(** ** Sequencing the handshake *)

Lemma bind_ok {A B} (m : M A) (k : A -> M B) (d d1 : Device) (a : A) :
  m d = OkR a d1 -> bind m k d = k a d1.
Proof. intro H. unfold bind. rewrite H. reflexivity. Qed.

Lemma send_ok (p : UbxPacket) (d : Device) :
  write_ok (port d) = true ->
  send p d = OkR tt (set_port d (mkPort (outbox (port d) ++ [p]) (inbox (port d))
                                        (clock (port d)) (write_ok (port d)))).
Proof. intro Hw. unfold send. rewrite Hw. reflexivity. Qed.


Lemma get_next_message_pollable (cd : Codec) (d : Device) (c : Cycle)
    (rest : list Cycle) :
  inbox (port d) = c :: rest -> pollable c = true ->
  exists r d', get_next_message cd d = OkR r d' /\
    inbox (port d') = rest /\ clock (port d') = (clock (port d) + took c)%N /\
    outbox (port d') = outbox (port d) /\
    alp_data d' = alp_data d /\ alp_file_id d' = alp_file_id d.
Proof.
  intros Hin Hp. destruct c as [dt [e | [p|]]]; cbn in Hp; try discriminate;
    [destruct p; try discriminate|];
    unfold get_next_message, bind, recv; rewrite Hin;
    do 2 eexists; (split; [reflexivity|]); cbn; repeat split.
Qed.

Lemma while_elapsed_poll (cd : Codec) (limit : N) :
  forall l d fuel start,
  inbox (port d) = l -> forallb pollable l = true ->
  (List.length l <= fuel)%nat -> (start <= clock (port d))%N ->
  (limit <= clock (port d) - start + elapsed l)%N ->
  exists d', while_elapsed fuel start limit (poll cd) d = OkR tt d' /\
    outbox (port d') = outbox (port d) /\
    alp_data d' = alp_data d /\ alp_file_id d' = alp_file_id d.
Proof.
  induction l as [|c l IH]; intros d fuel start Hin Hall Hlen Hst Hel.
  - exists d. assert (Hf : (clock (port d) - start <? limit)%N = false)
      by (apply N.ltb_ge; cbn in Hel; lia).
    destruct fuel; cbn [while_elapsed]; unfold bind, now; rewrite Hf;
      repeat split; reflexivity.
  - destruct (N.ltb_spec (clock (port d) - start) limit) as [Hlt|Hge].
    + destruct fuel as [|fuel]; [cbn in Hlen; lia|].
      apply andb_prop in Hall as [Hc Hall].
      destruct (get_next_message_pollable cd d c l Hin Hc)
        as (r & d1 & Hg & Hin1 & Hclk1 & Hout1 & Ha1 & Hf1).
      destruct (IH d1 fuel start Hin1 Hall) as (d2 & Hw & Hout2 & Ha2 & Hf2);
        [cbn in Hlen; lia | lia | cbn in Hel; lia |].
      exists d2. cbn [while_elapsed]. unfold bind at 1, now.
      rewrite (proj2 (N.ltb_lt _ _) Hlt).
      assert (Hp : poll cd d = OkR tt d1)
        by (unfold poll, bind; rewrite Hg; reflexivity).
      rewrite (bind_ok _ _ _ _ _ Hp). rewrite Hw.
      repeat split; congruence.
    + exists d. destruct fuel; cbn [while_elapsed]; unfold bind, now;
        rewrite (proj2 (N.ltb_ge _ _) Hge); repeat split; reflexivity.
Qed.

(** A receive error during [wait_for_ack] ends the wait with that error
    (it is not retried), once the packets before it have been absorbed. *)
Theorem wait_for_ack_propagates_recv_error (cd : Codec) (d : Device)
    (pre rest : list Cycle) (dt : N) (f : RecvFailure) (classid msgid : Z) :
  inbox (port d) = pre ++ mkCycle dt (inl f) :: rest ->
  forallb passes_through pre = true ->
  (elapsed pre < 1000)%N ->
  exists d', wait_for_ack cd classid msgid d = ErrR (recv_error f) d' /\
             inbox (port d') = rest.
Proof.
  intros Hin Hall Hel.
  unfold wait_for_ack, bind, now, script_length. cbv beta iota.
  rewrite Hin.
  destruct (wait_loop_skips cd classid msgid pre _ d
              (List.length (pre ++ mkCycle dt (inl f) :: rest))
              (clock (port d)) Hin Hall) as (d1 & Hin1 & Hclk1 & Heq);
    [rewrite length_app; lia | lia | lia |].
  rewrite Heq, length_app, Nat.add_comm, Nat.add_sub. cbn [List.length].
  rewrite wait_loop_step by lia.
  unfold get_next_message, bind, recv. rewrite Hin1. cbn.
  eexists; split; reflexivity.
Qed.

(** [poll_for] over traffic of acknowledgements, navigation, version and
    unknown packets returns [Ok(())] once the window has elapsed: such
    packets never fail the poll (acknowledgements are dropped) and nothing
    is sent. *)
Theorem poll_for_quiet_traffic (cd : Codec) (d : Device) (duration : N) :
  forallb pollable (inbox (port d)) = true ->
  (duration <= elapsed (inbox (port d)))%N ->
  exists d', poll_for cd duration d = OkR tt d' /\
    outbox (port d') = outbox (port d).
Proof.
  intros Hall Hel. unfold poll_for, bind, now, script_length. cbv beta iota.
  destruct (while_elapsed_poll cd duration (inbox (port d)) d
              (List.length (inbox (port d))) (clock (port d)) eq_refl Hall)
    as (d' & Hw & Hout & _); [lia | lia | lia |].
  exists d'. split; assumption.
Qed.






Section Preserves.

Variable R : Device -> Device -> Prop.
Hypothesis R_refl : forall d, R d d.
Hypothesis R_trans : forall d1 d2 d3, R d1 d2 -> R d2 d3 -> R d1 d3.

Lemma preserves_bind {A B} (m : M A) (k : A -> M B) :
  preserves R m -> (forall a, preserves R (k a)) -> preserves R (bind m k).
Proof.
  intros Hm Hk d. specialize (Hm d). unfold bind.
  destruct (m d) as [a d1|e d1|msg|d1]; try exact Hm.
  specialize (Hk a d1). destruct (k a d1); eauto.
Qed.

Lemma preserves_ret {A} (a : A) : preserves R (ret a).
Proof. intro d. apply R_refl. Qed.



Lemma preserves_starve {A} : preserves R (@starve A).
Proof. intro d. apply R_refl. Qed.

Lemma preserves_now : preserves R now.
Proof. intro d. apply R_refl. Qed.



Lemma preserves_while_elapsed (body : M unit) (limit : N) :
  preserves R body -> forall fuel start, preserves R (while_elapsed fuel start limit body).
Proof.
  intros Hb fuel. induction fuel as [|fuel IH]; intro start; cbn [while_elapsed];
    apply preserves_bind; try apply preserves_now; intro t;
    destruct (t - start <? limit)%N;
    auto using preserves_ret, preserves_starve, preserves_bind.
Qed.

End Preserves.

Lemma session_unchanged_refl (d : Device) : session_unchanged d d.
Proof. repeat split. Qed.

Lemma session_unchanged_trans (d1 d2 d3 : Device) :
  session_unchanged d1 d2 -> session_unchanged d2 d3 -> session_unchanged d1 d3.
Proof. unfold session_unchanged. intuition congruence. Qed.



Lemma recv_silent : preserves session_unchanged recv.
Proof.
  intro d. unfold recv. destruct (inbox (port d)) as [|c rest];
    [apply session_unchanged_refl|].
  destruct (result c); unfold session_unchanged; cbn; repeat split.
Qed.












(** The 500 ms drain of [reset] ([while start.elapsed() < 500ms
    { let _ = self.recv()?; }]) discards what it receives: however it ends,
    it has sent nothing and left the cached packets and the blob as they
    were. *)
Theorem reset_drain_discards (fuel : nat) (start limit : N) :
  preserves session_unchanged (while_elapsed fuel start limit (recv ;; ret tt)).
Proof.
  apply (preserves_while_elapsed _ session_unchanged_refl session_unchanged_trans).
  apply (preserves_bind _ session_unchanged_trans); [apply recv_silent|].
  intro. apply (preserves_ret _ session_unchanged_refl).
Qed.


(** [set_alp_offline] replaces the blob and its file id before it writes to
    the port: when the write fails it returns the I/O error with the new blob
    already in place and nothing sent. *)
Theorem set_alp_offline_write_fails (cd : Codec) (crc16_x25 : list Z -> Z)
    (data : list Z) (d : Device) :
  write_ok (port d) = false ->
  exists d', set_alp_offline cd crc16_x25 data d = ErrR IoError d' /\
    alp_data d' = data /\ alp_file_id d' = crc16_x25 data /\
    outbox (port d') = outbox (port d).
Proof.
  intro Hw. unfold set_alp_offline, bind at 1 2 3, get, put, send.
  cbn [set_alp port]. rewrite Hw.
  eexists. split; [reflexivity|]. cbn. repeat split.
Qed.

(** [load_aid_data] only writes: on a working port it sends one [AidIni]
    frame (class 0x0b, id 0x01) and reads nothing (the inbox and the clock are
    unchanged, the cache and blob too); without position and time the frame
    carries the serialized [AidIni::new()]. *)
Theorem load_aid_data_sends_one (cd : Codec) (AidIni : Type) (aidini_new : AidIni)
    (aid_set_position : AidIni -> Position cd -> AidIni)
    (aid_set_time : AidIni -> DateTimeUtc cd -> AidIni)
    (aidini_serialize : AidIni -> list Z)
    (position : option (Position cd)) (tm : option (DateTimeUtc cd)) (d : Device) :
  write_ok (port d) = true ->
  exists payload d',
    load_aid_data cd AidIni aidini_new aid_set_position aid_set_time
      aidini_serialize position tm d = OkR tt d' /\
    outbox (port d') = outbox (port d) ++ [mkUbxPacket 11 1 payload] /\
    inbox (port d') = inbox (port d) /\ clock (port d') = clock (port d) /\
    navpos d' = navpos d /\ navvel d' = navvel d /\
    navstatus d' = navstatus d /\ solution d' = solution d /\
    alp_data d' = alp_data d /\ alp_file_id d' = alp_file_id d /\
    (position = None -> tm = None -> payload = aidini_serialize aidini_new).
Proof.
  intro Hw. unfold load_aid_data. cbv zeta.
  rewrite (bind_ok _ _ _ _ _ (send_ok _ _ Hw)).
  do 2 eexists. split; [reflexivity|]. cbn. repeat split.
  intros -> ->. reflexivity.
Qed.


(** [reset] clears the cached position and status only after the [CfgRst]
    frame is written: when the write fails it returns the I/O error with the
    session untouched. *)
Theorem reset_write_fails (cd : Codec) (temperature : ResetType) (d : Device) :
  write_ok (port d) = false ->
  reset cd temperature d = ErrR IoError d.
Proof.
  intro Hw. unfold reset, bind at 1, send. cbv zeta. rewrite Hw. reflexivity.
Qed.

(* ------------------------------------------------------------------------- *)
(** * The further properties at concrete sessions *)

(** A request for words 10..19 of the 100-byte blob is answered. *)
Lemma get_next_message_alp_in_range_witness :
  exists d', get_next_message unit_codec
               (session_with [cycle_ok 0 (Some (alp_request 10 10))]) = OkR None d'.
Proof.
  destruct (get_next_message_alp_in_range unit_codec
              (session_with [cycle_ok 0 (Some (alp_request 10 10))]) 0
              (AlpSrv.mk 16 0 10 10 0 0 0 0 0) [])
    as (d' & H & _).
  - reflexivity.
  - discriminate.
  - reflexivity.
  - cbn. lia.
  - cbn. lia.
  - cbn. lia.
  - exists d'. exact H.
Defined.


Lemma get_next_message_alp_without_blob_witness :
  exists d', get_next_message unit_codec
               (mkDevice (mkPort [] [cycle_ok 0 (Some (alp_request 1 1))] 0 true)
                         [] 0 None None None None) = OkR None d'.
Proof.
  destruct (get_next_message_alp_without_blob unit_codec
              (mkDevice (mkPort [] [cycle_ok 0 (Some (alp_request 1 1))] 0 true)
                        [] 0 None None None None) 0
              (AlpSrv.mk 16 0 1 1 0 0 0 0 0) [])
    as (d' & H & _).
  - reflexivity.
  - reflexivity.
  - exists d'. exact H.
Defined.

Lemma get_next_message_ignores_other_witness :
  exists d', get_next_message unit_codec (session_with [cycle_ok 5 None]) = OkR None d'.
Proof.
  destruct (get_next_message_ignores_other unit_codec (session_with [cycle_ok 5 None])
              5 None []) as (d' & H & _).
  - reflexivity.
  - exact I.
  - exists d'. exact H.
Defined.

Lemma wait_for_ack_propagates_recv_error_witness :
  exists d', wait_for_ack unit_codec 6 1
               (session_with [cycle_ok 100 None; mkCycle 5 (inl PortError)])
             = ErrR (recv_error PortError) d'.
Proof.
  destruct (wait_for_ack_propagates_recv_error unit_codec
              (session_with [cycle_ok 100 None; mkCycle 5 (inl PortError)])
              [cycle_ok 100 None] [] 5 PortError 6 1) as (d' & H & _).
  - reflexivity.
  - reflexivity.
  - cbn. lia.
  - exists d'. exact H.
Defined.

Lemma poll_for_quiet_traffic_witness :
  exists d', poll_for unit_codec 200
               (session_with [cycle_ok 150 None;
                              cycle_ok 100 (Some (Packet.NavStatus (status_at 1000 1)))])
             = OkR tt d'.
Proof.
  destruct (poll_for_quiet_traffic unit_codec
              (session_with [cycle_ok 150 None;
                             cycle_ok 100 (Some (Packet.NavStatus (status_at 1000 1)))])
              200) as (d' & H & _).
  - reflexivity.
  - cbn. lia.
  - exists d'. exact H.
Defined.




Lemma set_alp_offline_write_fails_witness :
  exists d', set_alp_offline unit_codec (fun l => Z.of_nat (List.length l)) [1; 2; 3]
               (mkDevice (mkPort [] [] 0 false) blob100 4660 None None None None)
             = ErrR IoError d' /\ alp_data d' = [1; 2; 3].
Proof.
  destruct (set_alp_offline_write_fails unit_codec (fun l => Z.of_nat (List.length l))
              [1; 2; 3] (mkDevice (mkPort [] [] 0 false) blob100 4660 None None None None))
    as (d' & H & Hdata & _).
  - reflexivity.
  - exists d'. split; [exact H | exact Hdata].
Defined.

(** An [AidIni] modelled as the list of the fields set on it. *)
Lemma load_aid_data_sends_one_witness :
  exists d', load_aid_data unit_codec (list Z) [] (fun a _ => a ++ [1])
               (fun a _ => a ++ [2]) (fun a => a) (Some tt) (Some tt) (session_with [])
             = OkR tt d'.
Proof.
  destruct (load_aid_data_sends_one unit_codec (list Z) [] (fun a _ => a ++ [1])
              (fun a _ => a ++ [2]) (fun a => a) (Some tt) (Some tt) (session_with []))
    as (payload & d' & H & _).
  - reflexivity.
  - exists d'. exact H.
Defined.


Lemma reset_write_fails_witness :
  reset unit_codec Hot
    (mkDevice (mkPort [] [] 0 false) blob100 4660 (Some (llh_at 5)) None
              (Some (status_at 5 1)) None)
  = ErrR IoError
      (mkDevice (mkPort [] [] 0 false) blob100 4660 (Some (llh_at 5)) None
                (Some (status_at 5 1)) None).
Proof.
  apply reset_write_fails. reflexivity.
Defined.
